(** * Dynamic Breakout II: the daily signal of [DynamicBreakoutAlgoTutorial.py]

    A shallow embedding of [DynamicBreakoutAlgorithm.SetSignal] and of the
    state set up by [Initialize].  Python floats (and numpy's float64) are
    IEEE-754 binary64 numbers: they are modelled by Rocq's primitive floats,
    whose operations are specified by [FloatAxioms] over [SpecFloat].  The
    attributes of [self] are a record threaded through a small monad with
    exceptions and a trace of the calls made to the portfolio. *)

From Stdlib Require Import ZArith List Bool Lia.
From Stdlib Require Import Floats.
Import ListNotations.

Local Open Scope Z_scope.

(** ** Python numbers *)

Module PyFloat.

(** The exceptions the evaluation can raise. *)
Inductive exn : Type :=
| ValueError      (* int(nan), max() of an empty sequence *)
| OverflowError   (* int(inf) *)
| IndexError      (* iloc[-1] of an empty series *)
| TypeError.      (* a comparison with None *)

Inductive res (A : Type) : Type :=
| Ok (a : A)
| Raise (e : exn).
Arguments Ok {A} a.
Arguments Raise {A} e.

(** [float(n)] for a Python int of at most 63 bits, which covers every
    lookback the algorithm stores. *)
Definition float_of_int (n : Z) : float :=
  if n <? 0 then (- of_uint63 (Uint63.of_Z (- n)))%float
  else of_uint63 (Uint63.of_Z n).

(** The integer nearest to [m * 2^e], ties to the even one. *)
Definition round_half_even (m e : Z) : Z :=
  if 0 <=? e then m * 2 ^ e
  else
    let d := 2 ^ (- e) in
    let q := m / d in
    let r := m mod d in
    if 2 * r <? d then q
    else if d <? 2 * r then q + 1
    else if Z.even q then q else q + 1.

(** [int(round(x))]: Python rounds a float to the nearest integer, ties
    to even, and refuses nan and the infinities. *)
Definition py_round (x : float) : res Z :=
  match Prim2SF x with
  | S754_nan => Raise ValueError
  | S754_infinity _ => Raise OverflowError
  | S754_zero _ => Ok 0
  | S754_finite s m e =>
      let k := round_half_even (Zpos m) e in
      Ok (if s then - k else k)
  end.

(** A float that is a number: neither nan nor an infinity. *)
Definition finite (x : float) : Prop :=
  match Prim2SF x with
  | S754_nan | S754_infinity _ => False
  | _ => True
  end.

Definition is_number (x : float) : Prop := Prim2SF x <> S754_nan.

(** ** numpy reductions

    Sums run left to right; [np.std] is the population standard deviation
    (ddof = 0) in two passes, as numpy computes it. *)
Definition fsum (l : list float) : float := fold_left add l 0%float.

Definition np_mean (l : list float) : float :=
  (fsum l / float_of_int (Z.of_nat (length l)))%float.

Definition np_std (l : list float) : float :=
  let avg := np_mean l in
  sqrt (np_mean (map (fun x => let d := (x - avg)%float in (d * d)%float) l)).

(** The builtins [max] and [min] keep the first extremal item and replace
    it only on a strict comparison; both raise on an empty sequence. *)
Definition py_max (l : list float) : res float :=
  match l with
  | [] => Raise ValueError
  | x :: t => Ok (fold_left (fun m y => if (m <? y)%float then y else m) t x)
  end.

Definition py_min (l : list float) : res float :=
  match l with
  | [] => Raise ValueError
  | x :: t => Ok (fold_left (fun m y => if (y <? m)%float then y else m) t x)
  end.

(** [s.iloc[-1]] *)
Definition iloc_last (l : list float) : res float :=
  match rev l with
  | [] => Raise IndexError
  | x :: _ => Ok x
  end.

(** [l[i:j]] for [0 <= i <= j]; a slice is clipped to the sequence. *)
Definition slice {A} (i j : nat) (l : list A) : list A :=
  firstn (j - i) (skipn i l).

End PyFloat.
Import PyFloat.

(** ** The collaborators: price history, band indicator, portfolio *)

(** One daily bar of the data frame [History] returns; the algorithm reads
    the columns [high], [low] and [close]. *)
Record PriceBar : Type := mkBar {
  bar_high : float;
  bar_low : float;
  bar_close : float
}.

(** What one evaluation reads from the platform.  [daily] is the daily
    history available at the evaluation moment, oldest bar first. *)
Record Env : Type := mkEnv {
  daily : list PriceBar;
  Bolband_IsReady : bool;
  UpperBand : float;
  LowerBand : float;
  Quantity : float;   (* self.Portfolio[self.syl].Quantity *)
  Price : float       (* self.Portfolio[self.syl].Price *)
}.

(** [self.History(self.syl, n, Resolution.Daily)]: the [n] most recent
    bars, most recent last; fewer when the history is shorter. *)
Definition lastn {A} (n : nat) (l : list A) : list A :=
  skipn (length l - n) l.

Definition History (env : Env) (n : Z) : list PriceBar :=
  lastn (Z.to_nat n) (daily env).

(** The calls the evaluation makes on the platform. *)
Inductive action : Type :=
| SetHoldings (weight : Z)
| Liquidate
| Log (yesterdayclose : float) (numdays : Z).

(** ** The algorithm object *)

Record Algo : Type := mkAlgo {
  numdays : Z;
  ceiling : Z;
  floor : Z;
  buypoint : option float;
  sellpoint : option float;
  longLiqPoint : option float;
  shortLiqPoint : option float;
  yesterdayclose : option float;
  high : list float;   (* unset until the first evaluation assigns it *)
  low : list float
}.

(** The part of [Initialize] that sets the attributes [SetSignal] uses. *)
Definition Initialize : Algo :=
  {| numdays := 20; ceiling := 60; floor := 20;
     buypoint := None; sellpoint := None;
     longLiqPoint := None; shortLiqPoint := None; yesterdayclose := None;
     high := []; low := [] |}.

Definition set_numdays (v : Z) (s : Algo) : Algo :=
  {| numdays := v; ceiling := ceiling s; floor := floor s;
     buypoint := buypoint s; sellpoint := sellpoint s;
     longLiqPoint := longLiqPoint s; shortLiqPoint := shortLiqPoint s;
     yesterdayclose := yesterdayclose s; high := high s; low := low s |}.

Definition set_high (v : list float) (s : Algo) : Algo :=
  {| numdays := numdays s; ceiling := ceiling s; floor := floor s;
     buypoint := buypoint s; sellpoint := sellpoint s;
     longLiqPoint := longLiqPoint s; shortLiqPoint := shortLiqPoint s;
     yesterdayclose := yesterdayclose s; high := v; low := low s |}.

Definition set_low (v : list float) (s : Algo) : Algo :=
  {| numdays := numdays s; ceiling := ceiling s; floor := floor s;
     buypoint := buypoint s; sellpoint := sellpoint s;
     longLiqPoint := longLiqPoint s; shortLiqPoint := shortLiqPoint s;
     yesterdayclose := yesterdayclose s; high := high s; low := v |}.

Definition set_buypoint (v : float) (s : Algo) : Algo :=
  {| numdays := numdays s; ceiling := ceiling s; floor := floor s;
     buypoint := Some v; sellpoint := sellpoint s;
     longLiqPoint := longLiqPoint s; shortLiqPoint := shortLiqPoint s;
     yesterdayclose := yesterdayclose s; high := high s; low := low s |}.

Definition set_sellpoint (v : float) (s : Algo) : Algo :=
  {| numdays := numdays s; ceiling := ceiling s; floor := floor s;
     buypoint := buypoint s; sellpoint := Some v;
     longLiqPoint := longLiqPoint s; shortLiqPoint := shortLiqPoint s;
     yesterdayclose := yesterdayclose s; high := high s; low := low s |}.

Definition set_longLiqPoint (v : float) (s : Algo) : Algo :=
  {| numdays := numdays s; ceiling := ceiling s; floor := floor s;
     buypoint := buypoint s; sellpoint := sellpoint s;
     longLiqPoint := Some v; shortLiqPoint := shortLiqPoint s;
     yesterdayclose := yesterdayclose s; high := high s; low := low s |}.

Definition set_shortLiqPoint (v : float) (s : Algo) : Algo :=
  {| numdays := numdays s; ceiling := ceiling s; floor := floor s;
     buypoint := buypoint s; sellpoint := sellpoint s;
     longLiqPoint := longLiqPoint s; shortLiqPoint := Some v;
     yesterdayclose := yesterdayclose s; high := high s; low := low s |}.

Definition set_yesterdayclose (v : float) (s : Algo) : Algo :=
  {| numdays := numdays s; ceiling := ceiling s; floor := floor s;
     buypoint := buypoint s; sellpoint := sellpoint s;
     longLiqPoint := longLiqPoint s; shortLiqPoint := shortLiqPoint s;
     yesterdayclose := Some v; high := high s; low := low s |}.

(** ** A method body: state, exceptions and the calls made so far *)

Module Method.

Definition M (A : Type) : Type := Algo -> res A * Algo * list action.

Definition ret {A} (a : A) : M A := fun s => (Ok a, s, []).

Definition bind {A B} (m : M A) (f : A -> M B) : M B :=
  fun s =>
    match m s with
    | (Ok a, s1, out1) =>
        match f a s1 with
        | (r, s2, out2) => (r, s2, out1 ++ out2)
        end
    | (Raise e, s1, out1) => (Raise e, s1, out1)
    end.

(** A pure computation that may raise. *)
Definition lift {A} (r : res A) : M A := fun s => (r, s, []).

(** Reading and assigning an attribute of [self]. *)
Definition attr {A} (f : Algo -> A) : M A := fun s => (Ok (f s), s, []).
Definition assign (upd : Algo -> Algo) : M unit := fun s => (Ok tt, upd s, []).

(** A call on the platform. *)
Definition call (a : action) : M unit := fun s => (Ok tt, s, [a]).

Definition pass : M unit := ret tt.

(** Reading a level: [None] (never assigned) cannot be compared. *)
Definition level (f : Algo -> option float) : M float :=
  fun s => (match f s with Some v => Ok v | None => Raise TypeError end, s, []).

End Method.
Import Method.

Declare Scope method_scope.
Delimit Scope method_scope with method.
Notation "x <- m ;; k" := (bind m (fun x => k))
  (at level 61, m at next level, right associativity) : method_scope.
Notation "m ;; k" := (bind m (fun _ => k))
  (at level 61, right associativity) : method_scope.
Local Open Scope method_scope.

(** ** [SetSignal]

    What the platform shows (history, band, portfolio) is the same all
    through one evaluation, [holdings] being read before any order is
    placed.  The attributes read in the decision block are read once, in
    front of it: reading an attribute has no effect, and each was assigned
    above. *)
Definition SetSignal (env : Env) : M unit :=
  let close := map bar_close (History env 31) in
  let todayvol := np_std (slice 1 31 close) in
  let yesterdayvol := np_std (slice 0 30 close) in
  let deltavol := ((todayvol - yesterdayvol) / todayvol)%float in
  n <- attr numdays ;;
  k <- lift (py_round (float_of_int n * (1 + deltavol))) ;;
  assign (set_numdays k) ;;

  n <- attr numdays ;;
  c <- attr ceiling ;;
  f <- attr floor ;;
  (if c <? n then assign (set_numdays c)
   else if n <? f then assign (set_numdays f)
   else pass) ;;

  n <- attr numdays ;;
  assign (set_high (map bar_high (History env n))) ;;
  n <- attr numdays ;;
  assign (set_low (map bar_low (History env n))) ;;

  h <- attr high ;;
  b <- lift (py_max h) ;;
  assign (set_buypoint b) ;;
  l <- attr low ;;
  b <- lift (py_min l) ;;
  assign (set_sellpoint b) ;;
  n <- attr numdays ;;
  let historyclose := map bar_close (History env n) in
  assign (set_longLiqPoint (np_mean historyclose)) ;;
  assign (set_shortLiqPoint (np_mean historyclose)) ;;
  y <- lift (iloc_last historyclose) ;;
  assign (set_yesterdayclose y) ;;

  (* wait for our BollingerBand to fully initialize *)
  if negb (Bolband_IsReady env) then ret tt else

  let holdings := Quantity env in
  yc <- level yesterdayclose ;;
  bp <- level buypoint ;;
  sp <- level sellpoint ;;
  liq <- level shortLiqPoint ;;
  n <- attr numdays ;;

  (if (UpperBand env <? yc)%float && (bp <=? Price env)%float
   then call (SetHoldings 1)
   else if (yc <? LowerBand env)%float && (Price env <=? sp)%float
   then call (SetHoldings (-1))
   else pass) ;;

  (if (0 <? holdings)%float && (Price env <=? liq)%float
   then call Liquidate
   else if (holdings <? 0)%float && (liq <=? Price env)%float
   then call Liquidate
   else pass) ;;

  call (Log yc n).

(** The outcome, the state left in [self] and the calls made, in order. *)
Definition outcome (r : res unit * Algo * list action) : res unit := fst (fst r).
Definition final (r : res unit * Algo * list action) : Algo := snd (fst r).
Definition calls (r : res unit * Algo * list action) : list action := snd r.


(** ** The scheduled runs

    [SetSignal] is called once per trading day; an exception that leaves it
    ends the run.  Each day is recorded by how the call ended, the lookback
    it left and the calls it made. *)
Fixpoint run (s : Algo) (days : list Env) : list (res unit * Z * list action) :=
  match days with
  | [] => []
  | env :: rest =>
      let r := SetSignal env s in
      (outcome r, numdays (final r), calls r) ::
      match outcome r with
      | Ok _ => run (final r) rest
      | Raise _ => []
      end
  end.

(** ** The quantities of one evaluation, by name

    The values of the local variables of [SetSignal] (lines 61 to 65) as
    functions of what the evaluation reads. *)
Definition todayvol (env : Env) : float :=
  np_std (slice 1 31 (map bar_close (History env 31))).

Definition yesterdayvol (env : Env) : float :=
  np_std (slice 0 30 (map bar_close (History env 31))).

Definition deltavol (env : Env) : float :=
  ((todayvol env - yesterdayvol env) / todayvol env)%float.

(** The argument of [round] on line 65. *)
Definition scaled (env : Env) (s : Algo) : float :=
  (float_of_int (numdays s) * (1 + deltavol env))%float.

(** Lines 67 to 70 applied to a rounded value [k]. *)
Definition clamp (s : Algo) (k : Z) : Z :=
  if ceiling s <? k then ceiling s
  else if k <? floor s then floor s
  else k.

(** The decisions among the calls: everything but the log record. *)
Definition is_decision (a : action) : bool :=
  match a with
  | Log _ _ => false
  | _ => true
  end.

Definition decisions (r : res unit * Algo * list action) : list action :=
  filter is_decision (calls r).

Definition is_liquidate (a : action) : bool :=
  match a with
  | Liquidate => true
  | _ => false
  end.

(** The lookback state: what persists from one evaluation to the next. *)
Definition lookback (s : Algo) : Z * Z * Z := (numdays s, floor s, ceiling s).

(** The state an evaluation leaves once the levels are assigned (lines 72
    to 80), for a clamped lookback [n] and the values [max], [min] and
    [iloc[-1]] returned. *)
Definition with_levels (env : Env) (s : Algo) (n : Z) (b1 b2 y : float) : Algo :=
  {| numdays := n; ceiling := ceiling s; floor := floor s;
     buypoint := Some b1; sellpoint := Some b2;
     longLiqPoint := Some (np_mean (map bar_close (History env n)));
     shortLiqPoint := Some (np_mean (map bar_close (History env n)));
     yesterdayclose := Some y;
     high := map bar_high (History env n);
     low := map bar_low (History env n) |}.

(** The calls of the entry statement (lines 87 to 90) and of the exit
    statement (lines 92 to 95). *)
Definition entry_calls (env : Env) (yc bp sp : float) : list action :=
  if (UpperBand env <? yc)%float && (bp <=? Price env)%float
  then [SetHoldings 1]
  else if (yc <? LowerBand env)%float && (Price env <=? sp)%float
  then [SetHoldings (-1)]
  else [].

Definition exit_calls (env : Env) (liq : float) : list action :=
  if (0 <? Quantity env)%float && (Price env <=? liq)%float
  then [Liquidate]
  else if (Quantity env <? 0)%float && (liq <=? Price env)%float
  then [Liquidate]
  else [].

(** The constants [Initialize] sets and nothing changes. *)
Definition configured (s : Algo) : Prop := floor s = 20 /\ ceiling s = 60.

(** The states the scheduled runs go through. *)
Inductive reachable : Algo -> Prop :=
| reach_init : reachable Initialize
| reach_step (env : Env) (s : Algo) :
    reachable s -> reachable (final (SetSignal env s)).

(** ** Sample days

    Bars around 1 with closes on a grid of 1/64, so that every sum of
    closes is exact whatever the order of summation. *)
Definition bar (z : Z) : PriceBar :=
  let c := (1 + float_of_int z / 64)%float in
  mkBar (c + 0.015625) (c - 0.015625) c.

(** Sixty quiet days, then a jump up on the last one. *)
Definition jump_bars : list PriceBar :=
  map bar (concat (repeat [0; 1] 30) ++ [8]).

(** Thirty-one days at one and the same price. *)
Definition flat_bars : list PriceBar := repeat (mkBar 1.125 1.125 1.125) 31.

(** Only twenty-five days of history, the last one a jump up. *)
Definition short_bars : list PriceBar :=
  map bar (concat (repeat [0; 1] 12) ++ [8]).

(** Sixty quiet days, then a fall on the last one. *)
Definition fall_bars : list PriceBar :=
  map bar (concat (repeat [0; 1] 30) ++ [-8]).

(** The band is not ready on the day of the jump. *)
Definition jump_day : Env := mkEnv jump_bars false 0 0 0 1.125.

(** A flat market. *)
Definition flat_day : Env := mkEnv flat_bars true 1.25 1 0 1.125.

(** A short history, band ready, price above the highest high. *)
Definition short_day : Env := mkEnv short_bars true 1.0625 0.9375 0 1.25.

(** A long position on the day of the fall: yesterday's close is under
    the lower band and the price under the lowest low. *)
Definition fall_day : Env := mkEnv fall_bars true 1.0625 0.9375 1000 0.75.

(** A long position, the price exactly at the mean of the closes. *)
Definition mean_day : Env :=
  mkEnv (map bar (concat (repeat [0; 1] 30) ++ [1; 0])) true 1.0625 0.9375 1000
        1.0078125.

(** A state whose levels are left over from some earlier evaluation. *)
Definition stale : Algo :=
  {| numdays := 20; ceiling := 60; floor := 20;
     buypoint := Some 2%float; sellpoint := Some 0.5%float;
     longLiqPoint := Some 1.5%float; shortLiqPoint := Some 1.5%float;
     yesterdayclose := Some 1.75%float;
     high := [2; 1.5]%float; low := [0.5; 1]%float |}.

(** ** Further sample days and observations *)

(** Sixty-one quiet days: the two volatility windows hold the same closes. *)
Definition steady_day : Env :=
  mkEnv (map bar (concat (repeat [0; 1] 30) ++ [0])) false 0 0 0 1.

(** The day of the jump seen with another band and another portfolio. *)
Definition jump_day_ready : Env := mkEnv jump_bars true 1.0625 0.9375 (-500) 1.25.

(** The day of the fall with no position. *)
Definition fall_day_flat : Env := mkEnv fall_bars true 1.0625 0.9375 0 0.75.

(** The day of the fall with no price for the instrument. *)
Definition fall_day_no_price : Env := mkEnv fall_bars true 1.0625 0.9375 1000 nan.

Definition is_set_target (a : action) : bool :=
  match a with
  | SetHoldings _ => true
  | _ => false
  end.

(** A bar as the market makes them: numbers, the low not above the high. *)
Definition well_formed (b : PriceBar) : Prop :=
  is_number (bar_high b) /\ is_number (bar_low b) /\
  (bar_low b <=? bar_high b)%float = true.

(** The last 31 bars of the day of the jump, with other highs and lows. *)
Definition jump_day_recent : Env :=
  mkEnv (map (fun b => mkBar (bar_close b + 1) (bar_close b - 1) (bar_close b))
             (lastn 31 jump_bars))
        false 0 0 0 1.125.

(** The levels in [self] are either all unset, as [Initialize] leaves
    them, or all set, from one and the same stored window of at most
    [numdays] bars. *)
Definition levels_consistent (s : Algo) : Prop :=
  (buypoint s = None /\ sellpoint s = None /\ longLiqPoint s = None /\
   shortLiqPoint s = None /\ yesterdayclose s = None /\
   high s = [] /\ low s = []) \/
  (exists bp sp liq yc,
     buypoint s = Some bp /\ sellpoint s = Some sp /\
     longLiqPoint s = Some liq /\ shortLiqPoint s = Some liq /\
     yesterdayclose s = Some yc /\
     py_max (high s) = Ok bp /\ py_min (low s) = Ok sp /\
     length (high s) = length (low s) /\
     (0 < length (high s))%nat /\
     Z.of_nat (length (high s)) <= numdays s).

(** * Properties *)

(** ** Binary64 arithmetic *)

Lemma eqb_zero (t : float) :
  (t =? 0)%float = true -> exists sg, Prim2SF t = S754_zero sg.
Proof.
  rewrite eqb_spec. change (Prim2SF 0) with (S754_zero false).
  destruct (Prim2SF t) as [sg|sg| |sg m e]; cbn; try discriminate; eauto;
    destruct sg; discriminate.
Qed.

Lemma div_zero_not_finite (x t : float) :
  (t =? 0)%float = true -> ~ finite (x / t).
Proof.
  intros [sg Ht]%eqb_zero. unfold finite. rewrite div_spec, Ht.
  destruct (Prim2SF x); cbn; auto.
Qed.

Lemma add_one_not_finite (d : float) : ~ finite d -> ~ finite (1 + d).
Proof.
  unfold finite. rewrite add_spec.
  change (Prim2SF 1) with (S754_finite false 4503599627370496 (-52)).
  destruct (Prim2SF d); cbn; auto.
Qed.

Lemma mul_not_finite (a d : float) : ~ finite d -> ~ finite (a * d).
Proof.
  unfold finite. rewrite mul_spec.
  destruct (Prim2SF d); try tauto; destruct (Prim2SF a); cbn; auto.
Qed.

Lemma py_round_finite (x : float) :
  finite x <-> exists k, py_round x = Ok k.
Proof.
  unfold finite, py_round.
  destruct (Prim2SF x); split; try tauto; eauto;
    intros [k H]; discriminate.
Qed.

Lemma py_round_not_finite (x : float) :
  ~ finite x -> py_round x = Raise ValueError \/ py_round x = Raise OverflowError.
Proof.
  unfold finite, py_round. destruct (Prim2SF x); tauto.
Qed.

Example py_round_ties :
  map py_round [2.5; 3.5; 0.5; -0.5; -2.5; 20.25; 20.75; 75; nan; infinity]%float
  = [Ok 2; Ok 4; Ok 0; Ok 0; Ok (-2); Ok 20; Ok 21; Ok 75;
     Raise ValueError; Raise OverflowError].
Proof. vm_compute. reflexivity. Qed.

(** A lookback computed as 75 is stored as 60. *)
Example clamp_75 : clamp Initialize 75 = 60.
Proof. reflexivity. Qed.

(** *** The order of binary64 numbers *)

Ltac cmp_cases :=
  repeat match goal with
  | H : context [Z.compare ?a ?b] |- _ => destruct (Z.compare_spec a b)
  | H : context [Pos.compare ?a ?b] |- _ => destruct (Pos.compare_spec a b)
  | |- context [Z.compare ?a ?b] => destruct (Z.compare_spec a b)
  | |- context [Pos.compare ?a ?b] => destruct (Pos.compare_spec a b)
  end.

Lemma SFleb_refl (x : spec_float) : x <> S754_nan -> SFleb x x = true.
Proof.
  unfold SFleb. destruct x as [sg|sg| |sg m e]; cbn; try congruence.
  - destruct sg; reflexivity.
  - intros _. rewrite Z.compare_refl.
    change (Pos.compare_cont Eq m m) with (Pos.compare m m).
    rewrite Pos.compare_refl. destruct sg; reflexivity.
Qed.

Lemma SFleb_trans (x y z : spec_float) :
  SFleb x y = true -> SFleb y z = true -> SFleb x z = true.
Proof.
  unfold SFleb.
  destruct x as [sx|sx| |sx mx ex], y as [sy|sy| |sy my ey],
    z as [sz|sz| |sz mz ez]; cbn;
    repeat match goal with s : bool |- _ => destruct s end; cbn;
    try discriminate; try reflexivity;
    change (Pos.compare_cont Eq) with Pos.compare;
    intros; cmp_cases; subst; cbn in *;
    try discriminate; try reflexivity; lia.
Qed.

Lemma SFltb_leb (x y : spec_float) : SFltb x y = true -> SFleb x y = true.
Proof. unfold SFltb, SFleb. destruct (SFcompare x y) as [[]|]; auto. Qed.

Lemma SFcompare_swap (x y : spec_float) :
  SFcompare y x = option_map CompOpp (SFcompare x y).
Proof.
  destruct x as [sx|sx| |sx mx ex], y as [sy|sy| |sy my ey]; cbn;
    repeat match goal with s : bool |- _ => destruct s end; cbn; try reflexivity.
  all: change (Pos.compare_cont Eq) with Pos.compare.
  all: rewrite (Z.compare_antisym ex ey), (Pos.compare_antisym mx my).
  all: destruct (ex ?= ey); cbn; try reflexivity;
    destruct (mx ?= my)%positive; reflexivity.
Qed.

Lemma SFnlt_leb (x y : spec_float) :
  x <> S754_nan -> y <> S754_nan -> SFltb x y = false -> SFleb y x = true.
Proof.
  intros Hx Hy. unfold SFltb, SFleb. rewrite (SFcompare_swap x y).
  destruct (SFcompare x y) as [[]|] eqn:E; cbn; try congruence.
  destruct x, y; cbn in E; congruence.
Qed.

Lemma leb_refl (x : float) : is_number x -> (x <=? x)%float = true.
Proof. intros H. rewrite leb_spec. now apply SFleb_refl. Qed.

Lemma leb_trans (x y z : float) :
  (x <=? y)%float = true -> (y <=? z)%float = true -> (x <=? z)%float = true.
Proof. rewrite !leb_spec. apply SFleb_trans. Qed.

Lemma ltb_leb (x y : float) : (x <? y)%float = true -> (x <=? y)%float = true.
Proof. rewrite ltb_spec, leb_spec. apply SFltb_leb. Qed.

Lemma nlt_leb (x y : float) :
  is_number x -> is_number y -> (x <? y)%float = false -> (y <=? x)%float = true.
Proof. rewrite ltb_spec, leb_spec. apply SFnlt_leb. Qed.

(** *** The builtins [max] and [min] *)

Lemma fold_max_spec (t : list float) : forall x,
  is_number x -> Forall is_number t ->
  let r := fold_left (fun m y => if (m <? y)%float then y else m) t x in
  In r (x :: t) /\ Forall (fun y => (y <=? r)%float = true) (x :: t).
Proof.
  induction t as [|y t IH]; intros x Hx Ht; cbn.
  - split; [now left|]. constructor; [now apply leb_refl | constructor].
  - inversion Ht as [|? ? Hy Ht']; subst.
    destruct (x <? y)%float eqn:E.
    + destruct (IH y Hy Ht') as [Hin Hall]. cbn in Hin, Hall.
      split; [tauto|]. inversion Hall as [|? ? Hyr Htr]; subst.
      constructor; [|now constructor].
      eapply leb_trans; [apply ltb_leb, E | exact Hyr].
    + destruct (IH x Hx Ht') as [Hin Hall]. cbn in Hin, Hall.
      split; [tauto|]. inversion Hall as [|? ? Hxr Htr]; subst.
      constructor; [exact Hxr|]. constructor; [|exact Htr].
      eapply leb_trans; [apply nlt_leb, E; assumption | exact Hxr].
Qed.

Lemma fold_min_spec (t : list float) : forall x,
  is_number x -> Forall is_number t ->
  let r := fold_left (fun m y => if (y <? m)%float then y else m) t x in
  In r (x :: t) /\ Forall (fun y => (r <=? y)%float = true) (x :: t).
Proof.
  induction t as [|y t IH]; intros x Hx Ht; cbn.
  - split; [now left|]. constructor; [now apply leb_refl | constructor].
  - inversion Ht as [|? ? Hy Ht']; subst.
    destruct (y <? x)%float eqn:E.
    + destruct (IH y Hy Ht') as [Hin Hall]. cbn in Hin, Hall.
      split; [tauto|]. inversion Hall as [|? ? Hyr Htr]; subst.
      constructor; [|now constructor].
      eapply leb_trans; [exact Hyr | apply ltb_leb, E].
    + destruct (IH x Hx Ht') as [Hin Hall]. cbn in Hin, Hall.
      split; [tauto|]. inversion Hall as [|? ? Hxr Htr]; subst.
      constructor; [exact Hxr|]. constructor; [|exact Htr].
      eapply leb_trans; [exact Hxr | apply nlt_leb, E; assumption].
Qed.

Lemma py_max_spec (l : list float) (m : float) :
  Forall is_number l -> py_max l = Ok m ->
  In m l /\ Forall (fun y => (y <=? m)%float = true) l.
Proof.
  destruct l as [|x t]; cbn; [discriminate|].
  intros Hl [= <-]. inversion Hl; subst. now apply fold_max_spec.
Qed.

Lemma py_min_spec (l : list float) (m : float) :
  Forall is_number l -> py_min l = Ok m ->
  In m l /\ Forall (fun y => (m <=? y)%float = true) l.
Proof.
  destruct l as [|x t]; cbn; [discriminate|].
  intros Hl [= <-]. inversion Hl; subst. now apply fold_min_spec.
Qed.

(** ** Lists: the most recent bars and the two volatility windows *)

Lemma lastn_length {A} (n : nat) (l : list A) :
  length (lastn n l) = Nat.min n (length l).
Proof. unfold lastn. rewrite length_skipn. lia. Qed.

Lemma lastn_nil {A} (n : nat) (l : list A) :
  lastn n l = [] <-> n = 0%nat \/ l = [].
Proof.
  rewrite <- length_zero_iff_nil, lastn_length.
  rewrite <- (length_zero_iff_nil l). lia.
Qed.

Lemma lastn_map {A B} (f : A -> B) (n : nat) (l : list A) :
  lastn n (map f l) = map f (lastn n l).
Proof. unfold lastn. now rewrite length_map, skipn_map. Qed.

Lemma slice_today {A} (l : list A) :
  (31 <= length l)%nat -> slice 1 31 (lastn 31 l) = lastn 30 l.
Proof.
  intros H. unfold slice, lastn. rewrite skipn_skipn.
  replace (1 + (length l - 31))%nat with (length l - 30)%nat by lia.
  apply firstn_all2. rewrite length_skipn. lia.
Qed.

Lemma slice_yesterday {A} (l : list A) :
  (31 <= length l)%nat -> slice 0 30 (lastn 31 l) = lastn 30 (removelast l).
Proof.
  intros H. unfold slice, lastn. cbn [skipn Nat.sub].
  rewrite removelast_firstn_len, firstn_skipn_comm, length_firstn.
  f_equal; [lia|]. f_equal. lia.
Qed.

(** ** The paths through [SetSignal] *)

Ltac run_method :=
  unfold SetSignal, bind, lift, attr, assign, call, level, pass, ret;
  cbn [numdays ceiling floor buypoint sellpoint longLiqPoint shortLiqPoint
       yesterdayclose high low set_numdays set_high set_low set_buypoint
       set_sellpoint set_longLiqPoint set_shortLiqPoint set_yesterdayclose
       app fst snd].

(** [round] raises: nothing was assigned and nothing was called. *)
Lemma SetSignal_raise (env : Env) (s : Algo) (e : exn) :
  py_round (scaled env s) = Raise e ->
  SetSignal env s = (Raise e, s, []).
Proof.
  intros H. unfold scaled, deltavol, todayvol, yesterdayvol in H.
  run_method. now rewrite H.
Qed.

(** [round] returns and the window has a bar: the evaluation completes. *)
Lemma SetSignal_ok (env : Env) (s : Algo) (k : Z) (b1 b2 y : float) :
  py_round (scaled env s) = Ok k ->
  py_max (map bar_high (History env (clamp s k))) = Ok b1 ->
  py_min (map bar_low (History env (clamp s k))) = Ok b2 ->
  iloc_last (map bar_close (History env (clamp s k))) = Ok y ->
  SetSignal env s =
    (Ok tt, with_levels env s (clamp s k) b1 b2 y,
     if Bolband_IsReady env
     then entry_calls env y b1 b2
          ++ exit_calls env (np_mean (map bar_close (History env (clamp s k))))
          ++ [Log y (clamp s k)]
     else []).
Proof.
  intros Hk H1 H2 H3. unfold scaled, deltavol, todayvol, yesterdayvol in Hk.
  run_method. rewrite Hk.
  run_method.
  unfold clamp in *.
  destruct (ceiling s <? k); [|destruct (k <? floor s)]; run_method;
    rewrite H1; run_method; rewrite H2; run_method; rewrite H3; run_method;
    unfold with_levels, entry_calls, exit_calls;
    destruct (Bolband_IsReady env); cbn [negb]; try reflexivity;
    run_method;
    repeat match goal with
    | |- context [if ?c then _ else _] => destruct c
    end; reflexivity.
Qed.

(** [round] returns but the window is empty: [max] raises on line 75. *)
Lemma SetSignal_empty_window (env : Env) (s : Algo) (k : Z) :
  py_round (scaled env s) = Ok k ->
  History env (clamp s k) = [] ->
  SetSignal env s =
    (Raise ValueError, set_low [] (set_high [] (set_numdays (clamp s k) s)), []).
Proof.
  intros Hk Hw. unfold scaled, deltavol, todayvol, yesterdayvol in Hk.
  run_method. rewrite Hk. run_method. unfold clamp in *.
  destruct (ceiling s <? k); [|destruct (k <? floor s)]; run_method;
    rewrite Hw; reflexivity.
Qed.

Lemma window_values (w : list PriceBar) :
  w <> [] ->
  exists b1 b2 y,
    py_max (map bar_high w) = Ok b1 /\
    py_min (map bar_low w) = Ok b2 /\
    iloc_last (map bar_close w) = Ok y.
Proof.
  intros Hw. destruct w as [|b w]; [congruence|].
  unfold iloc_last. cbn [map py_max py_min].
  destruct (rev (bar_close b :: map bar_close w)) as [|y t] eqn:E.
  - apply (f_equal (@length float)) in E. rewrite length_rev in E. discriminate.
  - eauto 7.
Qed.

Lemma clamp_range (s : Algo) (k : Z) :
  configured s -> 20 <= clamp s k <= 60.
Proof.
  intros [Hf Hc]. unfold clamp. rewrite Hf, Hc.
  destruct (60 <? k) eqn:E1; [lia|]. destruct (k <? 20) eqn:E2; lia.
Qed.

Lemma clamp_max_min (s : Algo) (k : Z) :
  configured s -> clamp s k = Z.max 20 (Z.min 60 k).
Proof.
  intros [Hf Hc]. unfold clamp. rewrite Hf, Hc.
  destruct (60 <? k) eqn:E1; [lia|]. destruct (k <? 20) eqn:E2; lia.
Qed.

Lemma window_nonempty (env : Env) (s : Algo) (k : Z) :
  configured s -> daily env <> [] -> History env (clamp s k) <> [].
Proof.
  intros Hs Hd Hw. apply lastn_nil in Hw.
  pose proof (clamp_range s k Hs). destruct Hw; [lia | congruence].
Qed.

(** With the constants of [Initialize], a bar of history and a finite
    argument of [round], the evaluation runs to its end. *)
Lemma SetSignal_completes (env : Env) (s : Algo) (k : Z) :
  configured s -> daily env <> [] ->
  py_round (scaled env s) = Ok k ->
  exists b1 b2 y,
    py_max (map bar_high (History env (clamp s k))) = Ok b1 /\
    py_min (map bar_low (History env (clamp s k))) = Ok b2 /\
    iloc_last (map bar_close (History env (clamp s k))) = Ok y /\
    SetSignal env s =
      (Ok tt, with_levels env s (clamp s k) b1 b2 y,
       if Bolband_IsReady env
       then entry_calls env y b1 b2
            ++ exit_calls env (np_mean (map bar_close (History env (clamp s k))))
            ++ [Log y (clamp s k)]
       else []).
Proof.
  intros Hs Hd Hk.
  destruct (window_values _ (window_nonempty env s k Hs Hd)) as (b1 & b2 & y & H1 & H2 & H3).
  exists b1, b2, y. repeat split; try assumption.
  now apply SetSignal_ok.
Qed.

Lemma zero_todayvol_not_finite (env : Env) (s : Algo) :
  (todayvol env =? 0)%float = true -> ~ finite (scaled env s).
Proof.
  intros H. unfold scaled, deltavol.
  now apply mul_not_finite, add_one_not_finite, div_zero_not_finite.
Qed.

Lemma configured_final (env : Env) (s : Algo) :
  configured s -> configured (final (SetSignal env s)).
Proof.
  intros Hs. destruct (py_round (scaled env s)) as [k|e] eqn:Hk.
  - destruct (History env (clamp s k)) as [|b w] eqn:Hw.
    + rewrite (SetSignal_empty_window env s k Hk Hw). exact Hs.
    + destruct (window_values (b :: w)) as (b1 & b2 & y & H1 & H2 & H3);
        [discriminate|]. rewrite <- Hw in H1, H2, H3.
      rewrite (SetSignal_ok env s k b1 b2 y Hk H1 H2 H3). exact Hs.
  - rewrite (SetSignal_raise env s e Hk). exact Hs.
Qed.


(** With 31 bars or more, the two windows of [SetSignal] are the last 30
    closes and the 30 closes before the last one. *)
Lemma volatility_windows (env : Env) :
  (31 <= length (daily env))%nat ->
  todayvol env = np_std (lastn 30 (map bar_close (daily env))) /\
  yesterdayvol env = np_std (lastn 30 (removelast (map bar_close (daily env)))).
Proof.
  intros H. unfold todayvol, yesterdayvol, History.
  change (Z.to_nat 31) with 31%nat. rewrite <- lastn_map.
  rewrite slice_today, slice_yesterday by now rewrite length_map.
  split; reflexivity.
Qed.

(** ** The volatility adjuster *)

(** C1. Given at least 31 daily bars, [todayvol] is the standard deviation
    of the 30 most recent closes, [yesterdayvol] that of the 30 closes one
    day earlier and [deltavol] their relative difference; when the scaled
    lookback [numdays * (1 + deltavol)] is a finite number (which requires a
    nonzero [todayvol]), the evaluation completes and leaves in [numdays]
    the rounded value clamped into [20, 60], so that
    [floor <= numdays <= ceiling] holds after the adjustment. *)
Theorem adjuster_rounds_and_clamps (env : Env) (s : Algo) :
  (31 <= length (daily env))%nat ->
  configured s ->
  let closes := map bar_close (daily env) in
  let tv := np_std (lastn 30 closes) in
  let yv := np_std (lastn 30 (removelast closes)) in
  let dv := ((tv - yv) / tv)%float in
  let x := (float_of_int (numdays s) * (1 + dv))%float in
  finite x ->
  (tv =? 0)%float = false /\
  exists k,
    py_round x = Ok k /\
    outcome (SetSignal env s) = Ok tt /\
    numdays (final (SetSignal env s)) = Z.max 20 (Z.min 60 k) /\
    floor (final (SetSignal env s)) <= numdays (final (SetSignal env s))
      <= ceiling (final (SetSignal env s)).
Proof.
  intros Hlen Hs closes tv yv dv x Hx.
  destruct (volatility_windows env Hlen) as [Ht Hy].
  assert (Ex : x = scaled env s).
  { unfold scaled, deltavol. rewrite Ht, Hy. reflexivity. }
  split.
  - destruct (tv =? 0)%float eqn:E; [|reflexivity].
    exfalso. revert Hx. rewrite Ex. apply zero_todayvol_not_finite.
    now rewrite Ht.
  - destruct (proj1 (py_round_finite x) Hx) as [k Hk]. exists k.
    split; [exact Hk|]. rewrite Ex in Hk.
    assert (Hd : daily env <> []).
    { intros E. rewrite E in Hlen. cbn in Hlen. lia. }
    destruct (SetSignal_completes env s k Hs Hd Hk)
      as (b1 & b2 & y & _ & _ & _ & Hrun).
    rewrite Hrun. cbn [outcome final fst snd with_levels numdays floor ceiling].
    split; [reflexivity|]. split; [now apply clamp_max_min|].
    destruct Hs as [Hf Hc]. rewrite Hf, Hc. now apply clamp_range.
Qed.

(** On the day of the jump the lookback goes from 20 to 33. *)
Lemma adjuster_rounds_and_clamps_jump :
  py_round (scaled jump_day Initialize) = Ok 33 /\
  numdays (final (SetSignal jump_day Initialize)) = 33.
Proof.
  destruct (adjuster_rounds_and_clamps jump_day Initialize)
    as (_ & k & Hk & _ & Hn & _).
  - vm_compute. lia.
  - split; reflexivity.
  - vm_compute. exact I.
  - split; vm_compute; reflexivity.
Defined.

(** ** The decision block *)

Lemma ltb_asym (x y : float) :
  (x <? y)%float = true -> (y <? x)%float = false.
Proof.
  rewrite !ltb_spec. unfold SFltb.
  rewrite (SFcompare_swap (Prim2SF x) (Prim2SF y)).
  destruct (SFcompare (Prim2SF x) (Prim2SF y)) as [[]|]; cbn; congruence.
Qed.

Lemma decisions_of_calls (entry exit : list action) (y : float) (n : Z) :
  forallb is_decision entry = true -> forallb is_decision exit = true ->
  filter is_decision (entry ++ exit ++ [Log y n]) = entry ++ exit.
Proof.
  intros He Hx. rewrite !filter_app. cbn [filter is_decision].
  rewrite app_nil_r.
  f_equal; apply forallb_filter_id; assumption.
Qed.

Lemma entry_calls_decisions (env : Env) (yc bp sp : float) :
  forallb is_decision (entry_calls env yc bp sp) = true.
Proof.
  unfold entry_calls.
  repeat match goal with |- context [if ?c then _ else _] => destruct c end;
    reflexivity.
Qed.

Lemma exit_calls_decisions (env : Env) (liq : float) :
  forallb is_decision (exit_calls env liq) = true.
Proof.
  unfold exit_calls.
  repeat match goal with |- context [if ?c then _ else _] => destruct c end;
    reflexivity.
Qed.

(** C2. When the band is ready and the evaluation reaches the decision
    block, the entry statement is evaluated first (long when
    [yesterdayclose > upperBand] and [price >= buypoint], otherwise short
    when [yesterdayclose < lowerBand] and [price <= sellpoint]) and the exit
    statement second (liquidate when [holdings > 0] and
    [price <= shortLiqPoint], otherwise when [holdings < 0] and
    [price >= shortLiqPoint]).  The two entry rules never fire together, nor
    do the two exit rules, and a price exactly at [shortLiqPoint] liquidates
    a long position. *)
Theorem decision_rules_in_order (env : Env) (s : Algo) :
  Bolband_IsReady env = true ->
  configured s -> daily env <> [] -> finite (scaled env s) ->
  let r := SetSignal env s in
  exists yc bp sp liq,
    outcome r = Ok tt /\
    yesterdayclose (final r) = Some yc /\
    buypoint (final r) = Some bp /\
    sellpoint (final r) = Some sp /\
    shortLiqPoint (final r) = Some liq /\
    let entry_long := (UpperBand env <? yc)%float && (bp <=? Price env)%float in
    let entry_short := (yc <? LowerBand env)%float && (Price env <=? sp)%float in
    let exit_long := (0 <? Quantity env)%float && (Price env <=? liq)%float in
    let exit_short := (Quantity env <? 0)%float && (liq <=? Price env)%float in
    decisions r =
      (if entry_long then [SetHoldings 1]
       else if entry_short then [SetHoldings (-1)]
       else [])
      ++ (if exit_long then [Liquidate]
          else if exit_short then [Liquidate]
          else []) /\
    ~ (In (SetHoldings 1) (decisions r) /\ In (SetHoldings (-1)) (decisions r)) /\
    exit_long && exit_short = false /\
    (length (filter is_liquidate (decisions r)) <= 1)%nat /\
    (is_number liq -> (0 <? Quantity env)%float = true -> Price env = liq ->
     In Liquidate (decisions r)).
Proof.
  intros Hready Hs Hd Hx r.
  destruct (proj1 (py_round_finite _) Hx) as [k Hk].
  destruct (SetSignal_completes env s k Hs Hd Hk)
    as (b1 & b2 & y & _ & _ & _ & Hrun).
  exists y, b1, b2, (np_mean (map bar_close (History env (clamp s k)))).
  subst r. rewrite Hrun, Hready. unfold decisions.
  cbn [outcome final calls fst snd with_levels yesterdayclose buypoint
       sellpoint shortLiqPoint].
  rewrite decisions_of_calls
    by (apply entry_calls_decisions || apply exit_calls_decisions).
  do 5 (split; [reflexivity|]). cbv zeta.
  unfold entry_calls, exit_calls.
  set (liq := np_mean (map bar_close (History env (clamp s k)))).
  set (el := (UpperBand env <? y)%float && (b1 <=? Price env)%float).
  set (es := (y <? LowerBand env)%float && (Price env <=? b2)%float).
  set (xl := (0 <? Quantity env)%float && (Price env <=? liq)%float).
  set (xs := (Quantity env <? 0)%float && (liq <=? Price env)%float).
  assert (Hex : xl && xs = false).
  { subst xl xs. destruct (0 <? Quantity env)%float eqn:Eq; [|reflexivity].
    rewrite (ltb_asym _ _ Eq). now rewrite andb_false_r. }
  assert (Hb : is_number liq -> (0 <? Quantity env)%float = true ->
               Price env = liq -> xl = true).
  { intros Hn Hq Hp. subst xl. now rewrite Hq, Hp, leb_refl. }
  clearbody el es xl xs.
  split; [reflexivity|].
  split.
  { destruct el, es, xl, xs; cbn; intros [H1 H2];
      repeat (destruct H1 as [H1|H1]; try discriminate H1);
      repeat (destruct H2 as [H2|H2]; try discriminate H2); contradiction. }
  split; [exact Hex|].
  split.
  { destruct el, es, xl, xs; cbn; lia. }
  intros Hn Hq Hp. rewrite (Hb Hn Hq Hp).
  apply in_or_app. right. now left.
Qed.

(** A long position with the price exactly at the mean of the closes is
    liquidated. *)
Lemma decision_rules_in_order_mean_day :
  decisions (SetSignal mean_day Initialize) = [Liquidate] /\
  shortLiqPoint (final (SetSignal mean_day Initialize)) = Some (Price mean_day).
Proof.
  destruct (decision_rules_in_order mean_day Initialize)
    as (yc & bp & sp & liq & _ & _ & _ & _ & Hliq & _).
  - reflexivity.
  - split; reflexivity.
  - vm_compute. discriminate.
  - vm_compute. exact I.
  - split; vm_compute; reflexivity.
Defined.

(** ** Zero volatility *)

(** C3, as stated, fails: on 31 identical closes both deviations are 0,
    [deltavol] is nan and [round] raises. *)
Lemma flat_series_raises :
  (todayvol flat_day =? 0)%float = true /\
  (yesterdayvol flat_day =? 0)%float = true /\
  outcome (SetSignal flat_day Initialize) = Raise ValueError.
Proof. repeat split; vm_compute; reflexivity. Qed.

(** C3, amended. Whenever [todayvol] is 0 the evaluation raises ([ValueError]
    for a nan, [OverflowError] for an infinity); nothing was assigned before
    that, so [numdays] and every other attribute keep their values, and no
    call is made. *)
Theorem zero_volatility_raises (env : Env) (s : Algo) :
  (todayvol env =? 0)%float = true ->
  (outcome (SetSignal env s) = Raise ValueError \/
   outcome (SetSignal env s) = Raise OverflowError) /\
  final (SetSignal env s) = s /\
  numdays (final (SetSignal env s)) = numdays s /\
  calls (SetSignal env s) = [].
Proof.
  intros H.
  destruct (py_round_not_finite _ (zero_todayvol_not_finite env s H)) as [E|E];
    rewrite (SetSignal_raise env s _ E); cbn; auto.
Qed.

Lemma zero_volatility_raises_flat_day :
  final (SetSignal flat_day Initialize) = Initialize /\
  calls (SetSignal flat_day Initialize) = [].
Proof.
  destruct (zero_volatility_raises flat_day Initialize) as (_ & Hf & _ & Hc).
  - vm_compute. reflexivity.
  - split; assumption.
Defined.

(** ** The readiness gate *)

(** Every path through [SetSignal], by cases. *)
Lemma SetSignal_cases (env : Env) (s : Algo) :
  (exists e, py_round (scaled env s) = Raise e /\
             SetSignal env s = (Raise e, s, [])) \/
  (exists k, py_round (scaled env s) = Ok k /\
             History env (clamp s k) = [] /\
             SetSignal env s =
               (Raise ValueError,
                set_low [] (set_high [] (set_numdays (clamp s k) s)), [])) \/
  (exists k b1 b2 y,
     py_round (scaled env s) = Ok k /\
     py_max (map bar_high (History env (clamp s k))) = Ok b1 /\
     py_min (map bar_low (History env (clamp s k))) = Ok b2 /\
     iloc_last (map bar_close (History env (clamp s k))) = Ok y /\
     SetSignal env s =
       (Ok tt, with_levels env s (clamp s k) b1 b2 y,
        if Bolband_IsReady env
        then entry_calls env y b1 b2
             ++ exit_calls env (np_mean (map bar_close (History env (clamp s k))))
             ++ [Log y (clamp s k)]
        else [])).
Proof.
  destruct (py_round (scaled env s)) as [k|e] eqn:Hk.
  - destruct (History env (clamp s k)) as [|b w] eqn:Hw.
    + right; left. exists k.
      do 2 (split; [first [assumption | reflexivity]|]).
      now apply SetSignal_empty_window.
    + right; right.
      destruct (window_values (b :: w)) as (b1 & b2 & y & H1 & H2 & H3);
        [discriminate|].
      exists k, b1, b2, y. rewrite <- Hw in *.
      do 4 (split; [first [assumption | reflexivity]|]).
      now apply SetSignal_ok.
  - left. exists e. split; [reflexivity|]. now apply SetSignal_raise.
Qed.

(** X1. The invariant of the lookback state: in every state the scheduled
    runs reach from [Initialize], [floor] is 20, [ceiling] is 60 and
    [floor <= numdays <= ceiling], whether the evaluations completed or
    raised. *)
Lemma lookback_invariant (s : Algo) :
  reachable s -> configured s /\ floor s <= numdays s <= ceiling s.
Proof.
  induction 1 as [|env s _ [Hs Hn]].
  - split; [split; reflexivity | cbn; lia].
  - split; [now apply configured_final|].
    pose proof (fun k => clamp_range s k Hs) as Hk.
    destruct Hs as [Hf Hc].
    destruct (SetSignal_cases env s)
      as [(e & _ & ->) | [(k & _ & _ & ->) | (k & b1 & b2 & y & _ & _ & _ & _ & ->)]];
      cbn; try rewrite Hf, Hc; try apply Hk; lia.
Qed.

(** C4. While the band is not ready the evaluation makes no call at all,
    whatever the prices: no entry, no exit (and no log record). *)
Theorem not_ready_no_action (env : Env) (s : Algo) :
  Bolband_IsReady env = false ->
  calls (SetSignal env s) = [] /\ decisions (SetSignal env s) = [].
Proof.
  intros Hr. unfold decisions.
  destruct (SetSignal_cases env s)
    as [(e & _ & ->) | [(k & _ & _ & ->) | (k & b1 & b2 & y & _ & _ & _ & _ & ->)]];
    cbn [calls snd]; try rewrite Hr; split; reflexivity.
Qed.

(** The day of the jump, band not ready, price above every level. *)
Lemma not_ready_no_action_jump_day :
  calls (SetSignal jump_day Initialize) = [].
Proof.
  apply (not_ready_no_action jump_day Initialize). reflexivity.
Defined.

(** ** The level calculator *)

Lemma iloc_last_spec (l : list float) (y : float) :
  iloc_last l = Ok y -> exists l', l = l' ++ [y].
Proof.
  unfold iloc_last. destruct (rev l) as [|x t] eqn:E; [discriminate|].
  intros [= <-]. exists (rev t).
  rewrite <- (rev_involutive l), E. reflexivity.
Qed.

Lemma map_snoc_inv {A B} (f : A -> B) (l : list A) (l' : list B) (y : B) :
  map f l = l' ++ [y] -> exists older b, l = older ++ [b] /\ y = f b.
Proof.
  intros H. destruct (exists_last (l := l)) as (older & b & ->).
  - intros ->. destruct l'; discriminate H.
  - exists older, b. split; [reflexivity|].
    rewrite map_app in H. cbn in H. now apply app_inj_tail in H.
Qed.

(** C5. When the history holds the [numdays] bars asked for, the window has
    exactly [numdays] bars, [buypoint] is the maximum of its highs (one of
    them, and no high is above it), [sellpoint] the minimum of its lows,
    [longLiqPoint] and [shortLiqPoint] the mean of its closes (their sum
    divided by their number) and [yesterdayclose] the close of its last bar;
    each is the value of a function of the window alone.  Highs and lows are
    numbers (no nan), as prices are. *)
Theorem levels_from_window (env : Env) (s : Algo) (k : Z) :
  configured s ->
  py_round (scaled env s) = Ok k ->
  let n := clamp s k in
  let w := History env n in
  (Z.to_nat n <= length (daily env))%nat ->
  Forall is_number (map bar_high w) ->
  Forall is_number (map bar_low w) ->
  let r := SetSignal env s in
  exists bp sp liq yc,
    outcome r = Ok tt /\
    numdays (final r) = n /\
    Z.of_nat (length w) = numdays (final r) /\
    buypoint (final r) = Some bp /\
    py_max (map bar_high w) = Ok bp /\
    In bp (map bar_high w) /\
    Forall (fun h => (h <=? bp)%float = true) (map bar_high w) /\
    sellpoint (final r) = Some sp /\
    py_min (map bar_low w) = Ok sp /\
    In sp (map bar_low w) /\
    Forall (fun l => (sp <=? l)%float = true) (map bar_low w) /\
    longLiqPoint (final r) = Some liq /\
    shortLiqPoint (final r) = Some liq /\
    liq = (fsum (map bar_close w) / float_of_int (Z.of_nat (length w)))%float /\
    yesterdayclose (final r) = Some yc /\
    exists older b, w = older ++ [b] /\ yc = bar_close b.
Proof.
  intros Hs Hk n w Hlen Hh Hl r.
  pose proof (clamp_range s k Hs) as Hn. fold n in Hn.
  assert (Hw : length w = Z.to_nat n).
  { subst w. unfold History. rewrite lastn_length. lia. }
  assert (Hne : w <> []).
  { intros E. rewrite E in Hw. cbn in Hw. lia. }
  destruct (window_values w Hne) as (b1 & b2 & y & H1 & H2 & H3).
  exists b1, b2, (np_mean (map bar_close w)), y.
  subst r. rewrite (SetSignal_ok env s k b1 b2 y Hk H1 H2 H3).
  cbn [outcome final fst snd with_levels numdays buypoint sellpoint
       longLiqPoint shortLiqPoint yesterdayclose].
  destruct (py_max_spec _ _ Hh H1) as [Hin1 Hall1].
  destruct (py_min_spec _ _ Hl H2) as [Hin2 Hall2].
  destruct (iloc_last_spec _ _ H3) as [l' Hl'].
  repeat (split; [first [reflexivity | assumption | lia]|]).
  split; [unfold np_mean; now rewrite length_map|].
  split; [reflexivity|].
  exact (map_snoc_inv _ _ _ _ Hl').
Qed.

(** On the day of the jump the window is the last 33 bars of a history
    of 61. *)
Lemma levels_from_window_jump_day :
  buypoint (final (SetSignal jump_day Initialize)) = Some 1.140625%float /\
  sellpoint (final (SetSignal jump_day Initialize)) = Some 0.984375%float /\
  yesterdayclose (final (SetSignal jump_day Initialize)) = Some 1.125%float.
Proof.
  destruct (levels_from_window jump_day Initialize 33)
    as (bp & sp & liq & yc & _ & _ & _ & Hb & Hmax & _ & _ & Hsp & Hmin & _).
  - split; reflexivity.
  - vm_compute. reflexivity.
  - vm_compute. lia.
  - repeat constructor; vm_compute; discriminate.
  - repeat constructor; vm_compute; discriminate.
  - repeat split; vm_compute; reflexivity.
Defined.

(** ** How many decisions an evaluation makes *)

(** C6, as stated, fails: with a long position on the day of the fall the
    evaluation sets the short target and then liquidates. *)
Lemma entry_and_liquidation_together :
  decisions (SetSignal fall_day Initialize) = [SetHoldings (-1); Liquidate].
Proof. vm_compute. reflexivity. Qed.

(** C6, amended. An evaluation makes at most one set-target call (long or
    short, never both) followed by at most one liquidation: it makes no
    decision, one of the three, or a set-target and then a liquidation. *)
Theorem at_most_one_entry_then_one_exit (env : Env) (s : Algo) :
  let d := decisions (SetSignal env s) in
  d = [] \/ d = [SetHoldings 1] \/ d = [SetHoldings (-1)] \/ d = [Liquidate] \/
  d = [SetHoldings 1; Liquidate] \/ d = [SetHoldings (-1); Liquidate].
Proof.
  cbv zeta. unfold decisions.
  destruct (SetSignal_cases env s)
    as [(e & _ & ->) | [(k & _ & _ & ->) | (k & b1 & b2 & y & _ & _ & _ & _ & ->)]];
    cbn [calls snd]; try (left; reflexivity).
  destruct (Bolband_IsReady env); [|left; reflexivity].
  rewrite decisions_of_calls
    by (apply entry_calls_decisions || apply exit_calls_decisions).
  unfold entry_calls, exit_calls.
  repeat match goal with |- context [if ?c then _ else _] => destruct c end;
    cbn [app]; tauto.
Qed.

(** ** Short histories *)

Lemma empty_history_raises (env : Env) (s : Algo) :
  daily env = [] -> py_round (scaled env s) = Raise ValueError.
Proof.
  intros Hd. unfold scaled, deltavol, todayvol, yesterdayvol, History.
  rewrite Hd. unfold py_round. rewrite mul_spec.
  change (Prim2SF (1 + _)) with S754_nan.
  destruct (Prim2SF (float_of_int (numdays s))); reflexivity.
Qed.

(** C7, as stated, fails: with 25 bars of history the request for 31 comes
    back short, and the evaluation still completes, assigns the levels and
    sets the long target. *)
Lemma short_history_not_skipped :
  (length (History short_day 31) < 31)%nat /\
  outcome (SetSignal short_day Initialize) = Ok tt /\
  decisions (SetSignal short_day Initialize) = [SetHoldings 1] /\
  buypoint (final (SetSignal short_day Initialize)) <> buypoint Initialize.
Proof.
  split; [vm_compute; lia|].
  repeat split; vm_compute; try reflexivity. discriminate.
Qed.

(** C7, amended. A history shorter than the 31 bars asked for is not
    detected: the evaluation runs on the bars it got.  It stops without a
    decision and without a change of state only by raising, which it does
    exactly when the scaled lookback is not a finite number, as with no bar
    at all; otherwise it completes, assigns the clamped lookback and the
    levels of the bars returned, and applies the decision rules. *)
Theorem short_history_runs_on_returned_bars (env : Env) (s : Algo) :
  configured s ->
  (length (History env 31) < 31)%nat ->
  let r := SetSignal env s in
  (daily env = [] -> r = (Raise ValueError, s, [])) /\
  (~ finite (scaled env s) -> exists e, r = (Raise e, s, [])) /\
  (finite (scaled env s) ->
   exists k b1 b2 y,
     py_round (scaled env s) = Ok k /\
     py_max (map bar_high (History env (clamp s k))) = Ok b1 /\
     py_min (map bar_low (History env (clamp s k))) = Ok b2 /\
     iloc_last (map bar_close (History env (clamp s k))) = Ok y /\
     r = (Ok tt, with_levels env s (clamp s k) b1 b2 y,
          if Bolband_IsReady env
          then entry_calls env y b1 b2
               ++ exit_calls env (np_mean (map bar_close (History env (clamp s k))))
               ++ [Log y (clamp s k)]
          else [])).
Proof.
  intros Hs _ r. subst r. split; [|split].
  - intros Hd. apply SetSignal_raise. now apply empty_history_raises.
  - intros Hx. destruct (py_round_not_finite _ Hx) as [E|E];
      eexists; apply SetSignal_raise; exact E.
  - intros Hx. destruct (proj1 (py_round_finite _) Hx) as [k Hk].
    assert (Hd : daily env <> []).
    { intros Hd. rewrite (empty_history_raises env s Hd) in Hk. discriminate. }
    destruct (SetSignal_completes env s k Hs Hd Hk)
      as (b1 & b2 & y & H1 & H2 & H3 & Hrun).
    exists k, b1, b2, y. auto.
Qed.

Lemma short_history_runs_on_returned_bars_short_day :
  numdays (final (SetSignal short_day Initialize)) = 20 /\
  calls (SetSignal short_day Initialize) = [SetHoldings 1; Log 1.125 20].
Proof.
  destruct (short_history_runs_on_returned_bars short_day Initialize)
    as (_ & _ & H).
  - split; reflexivity.
  - vm_compute. lia.
  - split; vm_compute; reflexivity.
Defined.

(** ** The liquidation level *)

Lemma liq_points_step (env : Env) (s : Algo) :
  longLiqPoint s = shortLiqPoint s ->
  longLiqPoint (final (SetSignal env s)) = shortLiqPoint (final (SetSignal env s)).
Proof.
  intros H.
  destruct (SetSignal_cases env s)
    as [(e & _ & ->) | [(k & _ & _ & ->) | (k & b1 & b2 & y & _ & _ & _ & _ & ->)]];
    cbn; auto.
Qed.

Lemma liq_points_reachable (s : Algo) :
  reachable s -> longLiqPoint s = shortLiqPoint s.
Proof.
  induction 1 as [|env s _ IH]; [reflexivity|]. now apply liq_points_step.
Qed.

Lemma entry_calls_no_liquidation (env : Env) (yc bp sp : float) :
  ~ In Liquidate (entry_calls env yc bp sp).
Proof.
  unfold entry_calls.
  repeat match goal with |- context [if ?c then _ else _] => destruct c end;
    cbn [In]; intuition discriminate.
Qed.

Lemma exit_calls_liquidation (env : Env) (liq : float) :
  In Liquidate (exit_calls env liq) <->
  ((0 <? Quantity env)%float && (Price env <=? liq)%float
   || (Quantity env <? 0)%float && (liq <=? Price env)%float) = true.
Proof.
  unfold exit_calls.
  destruct ((0 <? Quantity env)%float && (Price env <=? liq)%float);
    destruct ((Quantity env <? 0)%float && (liq <=? Price env)%float);
    cbn [orb In]; intuition discriminate.
Qed.

(** C8. In every state the scheduled runs reach, [longLiqPoint] and
    [shortLiqPoint] hold the same value, before and after each evaluation;
    after a completed one it is the mean of the closes of the window, and a
    liquidation, in either direction, was decided against that one level. *)
Theorem one_liquidation_level (s : Algo) :
  reachable s ->
  longLiqPoint s = shortLiqPoint s /\
  forall env,
    let r := SetSignal env s in
    longLiqPoint (final r) = shortLiqPoint (final r) /\
    (outcome r = Ok tt ->
     exists liq,
       liq = np_mean (map bar_close (History env (numdays (final r)))) /\
       longLiqPoint (final r) = Some liq /\
       shortLiqPoint (final r) = Some liq /\
       (In Liquidate (calls r) <->
        Bolband_IsReady env = true /\
        ((0 <? Quantity env)%float && (Price env <=? liq)%float
         || (Quantity env <? 0)%float && (liq <=? Price env)%float) = true)).
Proof.
  intros Hr. pose proof (liq_points_reachable s Hr) as Heq.
  split; [exact Heq|]. intros env r. subst r.
  split; [now apply liq_points_step|].
  destruct (SetSignal_cases env s)
    as [(e & _ & ->) | [(k & _ & _ & ->) | (k & b1 & b2 & y & _ & _ & _ & _ & ->)]];
    cbn [outcome final calls fst snd]; try discriminate.
  intros _. eexists. split; [reflexivity|].
  cbn [with_levels numdays longLiqPoint shortLiqPoint].
  do 2 (split; [reflexivity|]).
  set (liq := np_mean _).
  destruct (Bolband_IsReady env).
  - rewrite !in_app_iff, exit_calls_liquidation.
    pose proof (entry_calls_no_liquidation env y b1 b2) as Hno.
    split.
    + intros [H | [H | [H | []]]];
        [contradiction | now split | discriminate H].
    + intros [_ H]. right; left. exact H.
  - split; [intros [] | intros [H _]; discriminate H].
Qed.

Lemma one_liquidation_level_after_mean_day :
  longLiqPoint (final (SetSignal mean_day Initialize))
  = shortLiqPoint (final (SetSignal mean_day Initialize)).
Proof.
  destruct (one_liquidation_level (final (SetSignal mean_day Initialize)))
    as [H _].
  - apply reach_step, reach_init.
  - exact H.
Defined.

(** ** Replay *)

(** An evaluation reads from [self] only the lookback state: two states
    with the same lookback give the same outcome, the same calls and the
    same lookback, and the same state altogether when the evaluation
    completes. *)
Lemma SetSignal_reads_lookback (env : Env) (s1 s2 : Algo) :
  lookback s1 = lookback s2 ->
  outcome (SetSignal env s1) = outcome (SetSignal env s2) /\
  calls (SetSignal env s1) = calls (SetSignal env s2) /\
  lookback (final (SetSignal env s1)) = lookback (final (SetSignal env s2)) /\
  (outcome (SetSignal env s1) = Ok tt ->
   final (SetSignal env s1) = final (SetSignal env s2)).
Proof.
  unfold lookback. intros [= Hn Hf Hc].
  assert (Hx : scaled env s2 = scaled env s1) by (unfold scaled; now rewrite Hn).
  assert (Hk : forall k, clamp s2 k = clamp s1 k)
    by (intros k; unfold clamp; now rewrite Hf, Hc).
  destruct (SetSignal_cases env s1)
    as [(e & He & ->) | [(k & Hr & Hw & ->) | (k & b1 & b2 & y & Hr & H1 & H2 & H3 & ->)]].
  - rewrite (SetSignal_raise env s2 e) by now rewrite Hx.
    cbn. rewrite Hn, Hf, Hc. repeat split. discriminate.
  - rewrite (SetSignal_empty_window env s2 k) by now rewrite ?Hx, ?Hk.
    cbn. rewrite Hk, Hf, Hc. repeat split. discriminate.
  - rewrite (SetSignal_ok env s2 k b1 b2 y) by now rewrite ?Hx, ?Hk.
    rewrite Hk. unfold with_levels. cbn. rewrite Hf, Hc. repeat split.
Qed.

Lemma run_reads_lookback (days : list Env) : forall s1 s2,
  lookback s1 = lookback s2 -> run s1 days = run s2 days.
Proof.
  induction days as [|env days IH]; intros s1 s2 H; [reflexivity|].
  destruct (SetSignal_reads_lookback env s1 s2 H) as (Ho & Hc & Hl & Hfin).
  cbn [run]. cbv zeta. rewrite <- Ho, <- Hc.
  assert (Hn : numdays (final (SetSignal env s1)) = numdays (final (SetSignal env s2)))
    by (unfold lookback in Hl; congruence).
  rewrite <- Hn. f_equal.
  destruct (outcome (SetSignal env s1)) as [[]|e]; [|reflexivity].
  now rewrite (Hfin eq_refl).
Qed.

(** C9. Two runs over the same days that start from a freshly initialized
    lookback state give the same outcomes, the same [numdays] and the same
    calls, day by day, whatever else the two starting states hold: an
    evaluation is a function of what it reads and of the lookback state. *)
Theorem replay_is_deterministic (days : list Env) (s1 s2 : Algo) :
  lookback s1 = lookback Initialize ->
  lookback s2 = lookback Initialize ->
  run s1 days = run s2 days.
Proof.
  intros H1 H2. apply run_reads_lookback. congruence.
Qed.

Lemma replay_is_deterministic_three_days :
  run stale [jump_day; fall_day; mean_day]
  = run Initialize [jump_day; fall_day; mean_day].
Proof.
  apply (replay_is_deterministic [jump_day; fall_day; mean_day] stale Initialize);
    reflexivity.
Defined.

(** ** The adjustment comes before the gate *)

(** C10. The lookback is rounded and clamped, and the levels are assigned,
    before the readiness of the band is looked at: on a day the band is not
    ready the evaluation completes with the new [numdays] and the new
    levels in [self], and with no call made. *)
Theorem adjusts_before_readiness_gate (env : Env) (s : Algo) (k : Z) :
  Bolband_IsReady env = false ->
  configured s -> daily env <> [] ->
  py_round (scaled env s) = Ok k ->
  let r := SetSignal env s in
  let w := History env (clamp s k) in
  outcome r = Ok tt /\
  calls r = [] /\
  numdays (final r) = clamp s k /\
  floor s <= numdays (final r) <= ceiling s /\
  high (final r) = map bar_high w /\
  low (final r) = map bar_low w /\
  longLiqPoint (final r) = Some (np_mean (map bar_close w)) /\
  shortLiqPoint (final r) = Some (np_mean (map bar_close w)) /\
  exists bp sp yc,
    py_max (map bar_high w) = Ok bp /\ buypoint (final r) = Some bp /\
    py_min (map bar_low w) = Ok sp /\ sellpoint (final r) = Some sp /\
    iloc_last (map bar_close w) = Ok yc /\ yesterdayclose (final r) = Some yc.
Proof.
  intros Hr Hs Hd Hk r w. subst r w.
  destruct (SetSignal_completes env s k Hs Hd Hk)
    as (b1 & b2 & y & H1 & H2 & H3 & ->).
  rewrite Hr. cbn. pose proof (clamp_range s k Hs) as Hrange.
  destruct Hs as [Hf Hc]. rewrite Hf, Hc.
  do 8 (split; [first [reflexivity | assumption | lia]|]).
  exists b1, b2, y. repeat split; assumption.
Qed.

(** The band is not ready on the day of the jump: the lookback still goes
    from 20 to 33 and the levels are assigned. *)
Lemma adjusts_before_readiness_gate_jump_day :
  numdays Initialize = 20 /\
  numdays (final (SetSignal jump_day Initialize)) = 33 /\
  buypoint (final (SetSignal jump_day Initialize)) <> None /\
  calls (SetSignal jump_day Initialize) = [].
Proof.
  destruct (adjusts_before_readiness_gate jump_day Initialize 33)
    as (_ & Hc & Hn & _ & _ & _ & _ & _ & bp & sp & yc & _ & Hb & _).
  - reflexivity.
  - split; reflexivity.
  - vm_compute. discriminate.
  - vm_compute. reflexivity.
  - split; [reflexivity|]. split; [exact Hn|].
    split; [rewrite Hb; discriminate | exact Hc].
Defined.

(** * Further properties of [SetSignal] *)

Lemma lookback_invariant_after_two_days :
  20 <= numdays (final (SetSignal flat_day (final (SetSignal jump_day Initialize)))) <= 60.
Proof.
  destruct (lookback_invariant
              (final (SetSignal flat_day (final (SetSignal jump_day Initialize)))))
    as [[Hf Hc] Hn].
  - apply reach_step, reach_step, reach_init.
  - rewrite Hf, Hc in Hn. exact Hn.
Defined.

(** ** Failure *)

Lemma py_round_raise (x : float) (e : exn) :
  py_round x = Raise e -> ~ finite x /\ (e = ValueError \/ e = OverflowError).
Proof.
  unfold py_round, finite. destruct (Prim2SF x); intros [= <-]; tauto.
Qed.

(** X3. With the constants of [Initialize] an evaluation either completes
    or raises from [int(round(...))] on line 65, with [ValueError] or
    [OverflowError]: [max], [min] and [iloc[-1]] never raise.  A failure is
    atomic: [self] is exactly as before and no call was made. *)
Theorem failure_is_atomic (env : Env) (s : Algo) :
  configured s ->
  outcome (SetSignal env s) = Ok tt \/
  ((outcome (SetSignal env s) = Raise ValueError \/
    outcome (SetSignal env s) = Raise OverflowError) /\
   ~ finite (scaled env s) /\
   final (SetSignal env s) = s /\
   calls (SetSignal env s) = []).
Proof.
  intros Hs.
  destruct (SetSignal_cases env s)
    as [(e & He & ->) | [(k & Hk & Hw & _) | (k & b1 & b2 & y & _ & _ & _ & _ & ->)]].
  - right. destruct (py_round_raise _ _ He) as [Hx [-> | ->]]; cbn; auto.
  - exfalso. apply lastn_nil in Hw. pose proof (clamp_range s k Hs).
    destruct Hw as [Hw | Hw]; [lia|].
    rewrite (empty_history_raises env s Hw) in Hk. discriminate.
  - left. reflexivity.
Qed.

Lemma failure_is_atomic_flat_day :
  outcome (SetSignal flat_day stale) = Raise ValueError /\
  final (SetSignal flat_day stale) = stale.
Proof.
  destruct (failure_is_atomic flat_day stale) as [H | (_ & _ & Hf & _)].
  - split; reflexivity.
  - vm_compute in H. discriminate H.
  - split; [vm_compute; reflexivity | exact Hf].
Defined.

(** ** The log record *)

(** X2. An evaluation writes its log record only when it runs to its end
    with the band ready: the record is then the last call, after the
    decisions, and carries the [yesterdayclose] and the [numdays] just
    stored.  A day the band is not ready, or an evaluation that raises,
    leaves no record. *)
Theorem log_record_last_when_ready (env : Env) (s : Algo) :
  let r := SetSignal env s in
  calls r =
    match outcome r, Bolband_IsReady env, yesterdayclose (final r) with
    | Ok _, true, Some yc => decisions r ++ [Log yc (numdays (final r))]
    | _, _, _ => []
    end.
Proof.
  cbv zeta. unfold decisions.
  destruct (SetSignal_cases env s)
    as [(e & _ & ->) | [(k & _ & _ & ->) | (k & b1 & b2 & y & _ & _ & _ & _ & ->)]];
    cbn [outcome final calls fst snd with_levels yesterdayclose numdays];
    try reflexivity.
  destruct (Bolband_IsReady env); [|reflexivity].
  rewrite decisions_of_calls
    by (apply entry_calls_decisions || apply exit_calls_decisions).
  now rewrite app_assoc.
Qed.

(** ** What the state depends on *)

Lemma History_daily (env1 env2 : Env) (n : Z) :
  daily env1 = daily env2 -> History env1 n = History env2 n.
Proof. unfold History. now intros ->. Qed.

Lemma scaled_daily (env1 env2 : Env) (s : Algo) :
  daily env1 = daily env2 -> scaled env1 s = scaled env2 s.
Proof.
  intros H. unfold scaled, deltavol, todayvol, yesterdayvol.
  now rewrite (History_daily env1 env2 31 H).
Qed.

(** X4. What an evaluation leaves in [self], and whether it raises, depend
    on the price history alone: the band (its readiness and its values),
    the holdings and the current price have no influence on [numdays] nor
    on any level. *)
Theorem state_depends_on_history_only (env1 env2 : Env) (s : Algo) :
  daily env1 = daily env2 ->
  outcome (SetSignal env1 s) = outcome (SetSignal env2 s) /\
  final (SetSignal env1 s) = final (SetSignal env2 s).
Proof.
  intros Hd.
  pose proof (scaled_daily env1 env2 s Hd) as Hx.
  pose proof (fun n => History_daily env1 env2 n Hd) as Hh.
  destruct (SetSignal_cases env1 s)
    as [(e & He & ->) | [(k & Hk & Hw & ->) | (k & b1 & b2 & y & Hk & H1 & H2 & H3 & ->)]].
  - rewrite (SetSignal_raise env2 s e) by now rewrite <- Hx.
    split; reflexivity.
  - rewrite (SetSignal_empty_window env2 s k) by now rewrite <- ?Hx, <- ?Hh.
    split; reflexivity.
  - rewrite (SetSignal_ok env2 s k b1 b2 y) by now rewrite <- ?Hx, <- ?Hh.
    unfold with_levels. rewrite !Hh. split; reflexivity.
Qed.

Lemma state_depends_on_history_only_jump_day :
  final (SetSignal jump_day_ready Initialize) = final (SetSignal jump_day Initialize) /\
  calls (SetSignal jump_day_ready Initialize) <> calls (SetSignal jump_day Initialize).
Proof.
  destruct (state_depends_on_history_only jump_day_ready jump_day Initialize)
    as [_ Hf].
  - reflexivity.
  - split; [exact Hf|]. vm_compute. discriminate.
Defined.

(** ** Breakouts *)

Lemma Forall_lastn {A} (P : A -> Prop) (n : nat) (l : list A) :
  Forall P l -> Forall P (lastn n l).
Proof.
  intros H. apply Forall_forall. intros x Hx.
  rewrite Forall_forall in H. apply H.
  unfold lastn in Hx. rewrite <- (firstn_skipn (length l - n) l).
  apply in_or_app. now right.
Qed.

Lemma Forall_map_iff {A B} (P : B -> Prop) (f : A -> B) (l : list A) :
  Forall P (map f l) <-> Forall (fun a => P (f a)) l.
Proof.
  induction l as [|a l IH]; cbn; split; intros H; try constructor;
    inversion H; subst; try assumption; now apply IH.
Qed.

(** Where a given call can come from. *)
Lemma SetHoldings_origin (env : Env) (s : Algo) (w : Z) :
  In (SetHoldings w) (calls (SetSignal env s)) ->
  exists k b1 b2 y,
    py_max (map bar_high (History env (clamp s k))) = Ok b1 /\
    py_min (map bar_low (History env (clamp s k))) = Ok b2 /\
    final (SetSignal env s) = with_levels env s (clamp s k) b1 b2 y /\
    In (SetHoldings w) (entry_calls env y b1 b2).
Proof.
  destruct (SetSignal_cases env s)
    as [(e & _ & ->) | [(k & _ & _ & ->) | (k & b1 & b2 & y & _ & H1 & H2 & _ & ->)]];
    cbn [calls final fst snd]; try contradiction.
  destruct (Bolband_IsReady env); [|contradiction].
  rewrite !in_app_iff. cbn [In]. intros [H | [H | [H | []]]].
  - exists k, b1, b2, y. auto.
  - exfalso. revert H. unfold exit_calls.
    repeat match goal with |- context [if ?c then _ else _] => destruct c end;
      cbn [In]; intros H; repeat destruct H as [H | H];
      try discriminate H; contradiction.
  - discriminate H.
Qed.

(** X5. The long target is set only on a breakout above the window:
    yesterday's close is above the upper band and the current price is at
    or above every high of the window just stored in [self.high].  Highs
    are numbers (no nan). *)
Theorem long_entry_is_breakout (env : Env) (s : Algo) :
  Forall (fun b => is_number (bar_high b)) (daily env) ->
  In (SetHoldings 1) (calls (SetSignal env s)) ->
  let r := SetSignal env s in
  high (final r) = map bar_high (History env (numdays (final r))) /\
  Forall (fun h => (h <=? Price env)%float = true) (high (final r)) /\
  exists yc,
    yesterdayclose (final r) = Some yc /\
    (UpperBand env <? yc)%float = true.
Proof.
  intros Hnum Hin r. subst r.
  destruct (SetHoldings_origin env s 1 Hin)
    as (k & b1 & b2 & y & H1 & _ & -> & He).
  cbn [with_levels high numdays yesterdayclose].
  unfold entry_calls in He.
  destruct ((UpperBand env <? y)%float && (b1 <=? Price env)%float) eqn:E.
  - apply andb_prop in E. destruct E as [Eu Ep].
    split; [reflexivity|]. split; [|eauto].
    assert (Hw : Forall is_number (map bar_high (History env (clamp s k)))).
    { apply Forall_map_iff. unfold History. now apply Forall_lastn. }
    destruct (py_max_spec _ _ Hw H1) as [_ Hall].
    eapply Forall_impl; [|exact Hall].
    intros h Hh. cbv beta in *. eapply leb_trans; eassumption.
  - exfalso. revert He.
    destruct ((y <? LowerBand env)%float && (Price env <=? b2)%float);
      cbn [In]; intros H; repeat destruct H as [H | H];
      try discriminate H; contradiction.
Qed.

Lemma long_entry_is_breakout_short_day :
  Forall (fun h => (h <=? Price short_day)%float = true)
         (high (final (SetSignal short_day Initialize))).
Proof.
  destruct (long_entry_is_breakout short_day Initialize) as (_ & H & _).
  - repeat constructor; vm_compute; discriminate.
  - vm_compute. left. reflexivity.
  - exact H.
Defined.

(** X6. The short target is set only on a breakout below the window:
    yesterday's close is under the lower band and the current price is at
    or under every low of the window just stored in [self.low]; this is
    the only other target there is.  Lows are numbers (no nan). *)
Theorem short_entry_is_breakout (env : Env) (s : Algo) (w : Z) :
  Forall (fun b => is_number (bar_low b)) (daily env) ->
  w <> 1 ->
  In (SetHoldings w) (calls (SetSignal env s)) ->
  let r := SetSignal env s in
  w = -1 /\
  low (final r) = map bar_low (History env (numdays (final r))) /\
  Forall (fun l => (Price env <=? l)%float = true) (low (final r)) /\
  exists yc,
    yesterdayclose (final r) = Some yc /\
    (yc <? LowerBand env)%float = true.
Proof.
  intros Hnum Hw1 Hin r. subst r.
  destruct (SetHoldings_origin env s w Hin)
    as (k & b1 & b2 & y & _ & H2 & -> & He).
  cbn [with_levels low numdays yesterdayclose].
  unfold entry_calls in He.
  destruct ((UpperBand env <? y)%float && (b1 <=? Price env)%float).
  { destruct He as [[= <-] | []]. congruence. }
  destruct ((y <? LowerBand env)%float && (Price env <=? b2)%float) eqn:E;
    [|contradiction].
  destruct He as [[= <-] | []].
  apply andb_prop in E. destruct E as [El Ep].
  split; [reflexivity|]. split; [reflexivity|]. split; [|eauto].
  assert (Hw : Forall is_number (map bar_low (History env (clamp s k)))).
  { apply Forall_map_iff. unfold History. now apply Forall_lastn. }
  destruct (py_min_spec _ _ Hw H2) as [_ Hall].
  eapply Forall_impl; [|exact Hall].
  intros l Hl. cbv beta in *. eapply leb_trans; eassumption.
Qed.

Lemma short_entry_is_breakout_fall_day :
  Forall (fun l => (Price fall_day <=? l)%float = true)
         (low (final (SetSignal fall_day Initialize))).
Proof.
  destruct (short_entry_is_breakout fall_day Initialize (-1)) as (_ & _ & H & _).
  - repeat constructor; vm_compute; discriminate.
  - discriminate.
  - vm_compute. left. reflexivity.
  - exact H.
Defined.

(** ** The order of the levels *)

(** X7. On bars whose low is not above their high, a completed evaluation
    leaves [sellpoint <= buypoint]: the breakout levels never cross. *)
Theorem sellpoint_below_buypoint (env : Env) (s : Algo) :
  Forall well_formed (daily env) ->
  outcome (SetSignal env s) = Ok tt ->
  exists sp bp,
    sellpoint (final (SetSignal env s)) = Some sp /\
    buypoint (final (SetSignal env s)) = Some bp /\
    (sp <=? bp)%float = true.
Proof.
  intros Hwf.
  destruct (SetSignal_cases env s)
    as [(e & _ & ->) | [(k & _ & _ & ->) | (k & b1 & b2 & y & _ & H1 & H2 & _ & ->)]];
    cbn [outcome final fst snd]; try discriminate.
  intros _. exists b2, b1. cbn [with_levels sellpoint buypoint].
  do 2 (split; [reflexivity|]).
  assert (Hw : Forall well_formed (History env (clamp s k)))
    by (unfold History; now apply Forall_lastn).
  destruct (History env (clamp s k)) as [|b w]; [discriminate H1|].
  assert (Hh : Forall is_number (map bar_high (b :: w))).
  { apply Forall_map_iff. eapply Forall_impl; [|exact Hw]. now intros ? (? & ? & ?). }
  assert (Hl : Forall is_number (map bar_low (b :: w))).
  { apply Forall_map_iff. eapply Forall_impl; [|exact Hw]. now intros ? (? & ? & ?). }
  destruct (py_max_spec _ _ Hh H1) as [_ Hmax].
  destruct (py_min_spec _ _ Hl H2) as [_ Hmin].
  inversion Hmax as [|? ? Hb1 _]; inversion Hmin as [|? ? Hb2 _]; subst.
  inversion Hw as [|? ? (_ & _ & Hb) _]; subst.
  eapply leb_trans; [exact Hb2|]. eapply leb_trans; [exact Hb | exact Hb1].
Qed.

Lemma sellpoint_below_buypoint_jump_day :
  sellpoint (final (SetSignal jump_day Initialize)) = Some 0.984375%float /\
  buypoint (final (SetSignal jump_day Initialize)) = Some 1.140625%float.
Proof.
  destruct (sellpoint_below_buypoint jump_day Initialize)
    as (sp & bp & Hs & Hb & _).
  - repeat constructor; vm_compute; discriminate || reflexivity.
  - vm_compute. reflexivity.
  - split; vm_compute; reflexivity.
Defined.

(** ** No position, no price *)

Lemma ltb_zero_right (q : float) :
  (q =? 0)%float = true -> (q <? 0)%float = false /\ (0 <? q)%float = false.
Proof.
  intros [sg Hq]%eqb_zero. rewrite !ltb_spec, Hq.
  change (Prim2SF 0) with (S754_zero false). split; reflexivity.
Qed.

(** X8. With no position ([Quantity] is 0) an evaluation never calls
    [Liquidate], wherever the price is. *)
Theorem flat_never_liquidates (env : Env) (s : Algo) :
  (Quantity env =? 0)%float = true ->
  ~ In Liquidate (calls (SetSignal env s)).
Proof.
  intros Hq. destruct (ltb_zero_right _ Hq) as [Hneg Hpos].
  destruct (SetSignal_cases env s)
    as [(e & _ & ->) | [(k & _ & _ & ->) | (k & b1 & b2 & y & _ & _ & _ & _ & ->)]];
    cbn [calls snd]; try (intros []).
  destruct (Bolband_IsReady env); [|intros []].
  rewrite !in_app_iff, exit_calls_liquidation, Hneg, Hpos. cbn [andb orb In].
  pose proof (entry_calls_no_liquidation env y b1 b2) as Hno.
  intros [H | [H | [H | []]]]; [contradiction | discriminate H | discriminate H].
Qed.

Lemma flat_never_liquidates_fall_day :
  calls (SetSignal fall_day_flat Initialize) = [SetHoldings (-1); Log 0.875 34] /\
  ~ In Liquidate (calls (SetSignal fall_day_flat Initialize)).
Proof.
  split; [vm_compute; reflexivity|].
  apply (flat_never_liquidates fall_day_flat Initialize). reflexivity.
Defined.

Lemma leb_nan_left (x y : float) :
  Prim2SF x = S754_nan -> (x <=? y)%float = false.
Proof. intros H. rewrite leb_spec, H. reflexivity. Qed.

Lemma leb_nan_right (x y : float) :
  Prim2SF y = S754_nan -> (x <=? y)%float = false.
Proof.
  intros H. rewrite leb_spec, H. unfold SFleb.
  destruct (Prim2SF x); reflexivity.
Qed.

(** X9. When the price of the instrument is nan every comparison with it
    is false: the evaluation sets no target and does not liquidate, even
    with the band ready and a position open. *)
Theorem no_price_no_decision (env : Env) (s : Algo) :
  Prim2SF (Price env) = S754_nan ->
  decisions (SetSignal env s) = [].
Proof.
  intros Hp. unfold decisions.
  destruct (SetSignal_cases env s)
    as [(e & _ & ->) | [(k & _ & _ & ->) | (k & b1 & b2 & y & _ & _ & _ & _ & ->)]];
    cbn [calls snd]; try reflexivity.
  destruct (Bolband_IsReady env); [|reflexivity].
  rewrite decisions_of_calls
    by (apply entry_calls_decisions || apply exit_calls_decisions).
  unfold entry_calls, exit_calls.
  rewrite !(leb_nan_left (Price env)), !(leb_nan_right _ (Price env)) by exact Hp.
  rewrite !andb_false_r. reflexivity.
Qed.

Lemma no_price_no_decision_fall_day :
  decisions (SetSignal fall_day Initialize) = [SetHoldings (-1); Liquidate] /\
  decisions (SetSignal fall_day_no_price Initialize) = [].
Proof.
  split; [vm_compute; reflexivity|].
  apply (no_price_no_decision fall_day_no_price Initialize). reflexivity.
Defined.

(** ** Steady volatility *)

Lemma round_stored_lookback (n : Z) :
  20 <= n <= 60 -> py_round (float_of_int n * 1) = Ok n.
Proof.
  intros Hn.
  assert (H : forallb
                (fun i => match py_round (float_of_int (20 + Z.of_nat i) * 1) with
                          | Ok k => k =? 20 + Z.of_nat i
                          | Raise _ => false
                          end) (seq 0 41) = true)
    by (vm_compute; reflexivity).
  rewrite forallb_forall in H. specialize (H (Z.to_nat (n - 20))).
  replace (20 + Z.of_nat (Z.to_nat (n - 20))) with n in H by lia.
  destruct (py_round (float_of_int n * 1)) as [k|e].
  - f_equal. apply Z.eqb_eq, H, in_seq. lia.
  - discriminate H. apply in_seq. lia.
Qed.

Lemma sub_self_div (t : float) :
  finite t -> (t =? 0)%float = false ->
  exists sg, Prim2SF ((t - t) / t) = S754_zero sg.
Proof.
  unfold finite. intros Hf Hz. rewrite eqb_spec in Hz.
  rewrite div_spec, sub_spec.
  change (Prim2SF 0) with (S754_zero false) in Hz.
  destruct (Prim2SF t) as [sg|sg| |sg m e]; try contradiction.
  - destruct sg; discriminate Hz.
  - unfold SF64sub, SFsub. cbv zeta. rewrite Z.sub_diag.
    cbn [binary_normalize]. unfold SF64div, SFdiv. eauto.
Qed.

Lemma add_one_zero (d : float) (sg : bool) :
  Prim2SF d = S754_zero sg -> (1 + d)%float = 1%float.
Proof.
  intros Hd. apply Prim2SF_inj. rewrite add_spec, Hd. reflexivity.
Qed.

(** X10. When the two volatility samples are equal (and a nonzero number)
    [deltavol] is 0 and the lookback is left as it is: with [numdays]
    between 20 and 60 the evaluation completes and stores the same
    [numdays]. *)
Theorem steady_volatility_keeps_numdays (env : Env) (s : Algo) :
  configured s ->
  20 <= numdays s <= 60 ->
  todayvol env = yesterdayvol env ->
  finite (todayvol env) ->
  (todayvol env =? 0)%float = false ->
  py_round (scaled env s) = Ok (numdays s) /\
  outcome (SetSignal env s) = Ok tt /\
  numdays (final (SetSignal env s)) = numdays s.
Proof.
  intros Hs Hn Heq Hf Hz.
  assert (Hk : py_round (scaled env s) = Ok (numdays s)).
  { unfold scaled, deltavol. rewrite <- Heq.
    destruct (sub_self_div _ Hf Hz) as [sg Hd].
    rewrite (add_one_zero _ sg Hd). now apply round_stored_lookback. }
  split; [exact Hk|].
  assert (Hd : daily env <> []).
  { intros Hd. rewrite (empty_history_raises env s Hd) in Hk. discriminate. }
  destruct (SetSignal_completes env s _ Hs Hd Hk)
    as (b1 & b2 & y & _ & _ & _ & ->).
  cbn [outcome final fst snd with_levels numdays].
  split; [reflexivity|].
  destruct Hs as [Hfl Hc]. unfold clamp. rewrite Hfl, Hc.
  destruct (60 <? numdays s) eqn:E1; [lia|].
  destruct (numdays s <? 20) eqn:E2; [lia|reflexivity].
Qed.

Lemma steady_volatility_keeps_numdays_steady_day :
  numdays (final (SetSignal steady_day Initialize)) = 20.
Proof.
  destruct (steady_volatility_keeps_numdays steady_day Initialize)
    as (_ & _ & H).
  - split; reflexivity.
  - cbn. lia.
  - vm_compute. reflexivity.
  - vm_compute. exact I.
  - vm_compute. reflexivity.
  - exact H.
Defined.

(** ** What each statement reads *)

(** X11. The entry statement does not look at the holdings: two days that
    differ only in [Quantity] get the same set-target call, so a long
    target is set again on a position that is already long. *)
Theorem entry_ignores_holdings (env : Env) (s : Algo) (q : float) :
  let env' := mkEnv (daily env) (Bolband_IsReady env) (UpperBand env)
                    (LowerBand env) q (Price env) in
  filter is_set_target (calls (SetSignal env' s))
  = filter is_set_target (calls (SetSignal env s)).
Proof.
  intros env'.
  assert (Hd : daily env' = daily env) by reflexivity.
  pose proof (scaled_daily env' env s Hd) as Hx.
  pose proof (fun n => History_daily env' env n Hd) as Hh.
  destruct (SetSignal_cases env s)
    as [(e & He & ->) | [(k & Hk & Hw & ->) | (k & b1 & b2 & y & Hk & H1 & H2 & H3 & ->)]].
  - now rewrite (SetSignal_raise env' s e) by now rewrite Hx.
  - now rewrite (SetSignal_empty_window env' s k) by now rewrite ?Hx, ?Hh.
  - rewrite (SetSignal_ok env' s k b1 b2 y) by now rewrite ?Hx, ?Hh.
    cbn [calls snd]. change (Bolband_IsReady env') with (Bolband_IsReady env).
    destruct (Bolband_IsReady env); [|reflexivity].
    rewrite !filter_app. f_equal. f_equal.
    unfold exit_calls.
    repeat match goal with |- context [if ?c then _ else _] => destruct c end;
      reflexivity.
Qed.

(** X12. The exit statement does not look at the values of the band: two
    days that differ only in [UpperBand] and [LowerBand] liquidate, or do
    not, alike. *)
Theorem exit_ignores_band_values (env : Env) (s : Algo) (u l : float) :
  let env' := mkEnv (daily env) (Bolband_IsReady env) u l
                    (Quantity env) (Price env) in
  filter is_liquidate (calls (SetSignal env' s))
  = filter is_liquidate (calls (SetSignal env s)).
Proof.
  intros env'.
  assert (Hd : daily env' = daily env) by reflexivity.
  pose proof (scaled_daily env' env s Hd) as Hx.
  pose proof (fun n => History_daily env' env n Hd) as Hh.
  destruct (SetSignal_cases env s)
    as [(e & He & ->) | [(k & Hk & Hw & ->) | (k & b1 & b2 & y & Hk & H1 & H2 & H3 & ->)]].
  - now rewrite (SetSignal_raise env' s e) by now rewrite Hx.
  - now rewrite (SetSignal_empty_window env' s k) by now rewrite ?Hx, ?Hh.
  - rewrite (SetSignal_ok env' s k b1 b2 y) by now rewrite ?Hx, ?Hh.
    cbn [calls snd]. change (Bolband_IsReady env') with (Bolband_IsReady env).
    destruct (Bolband_IsReady env); [|reflexivity].
    rewrite !Hh, !filter_app. f_equal.
    unfold entry_calls.
    repeat match goal with |- context [if ?c then _ else _] => destruct c end;
      reflexivity.
Qed.

(** ** The volatility sample *)

(** X13. The adjustment reads no more than the last 31 closes: two
    histories that end with the same 31 closes (or with the same closes
    altogether, when shorter) move [numdays] to the same value from the
    same lookback state, however many bars the breakout window then takes
    and whatever their highs and lows. *)
Theorem adjustment_reads_31_closes (env1 env2 : Env) (s : Algo) :
  configured s ->
  lastn 31 (map bar_close (daily env1)) = lastn 31 (map bar_close (daily env2)) ->
  scaled env1 s = scaled env2 s /\
  outcome (SetSignal env1 s) = outcome (SetSignal env2 s) /\
  numdays (final (SetSignal env1 s)) = numdays (final (SetSignal env2 s)).
Proof.
  intros Hs H31.
  assert (Hx : scaled env1 s = scaled env2 s).
  { unfold scaled, deltavol, todayvol, yesterdayvol, History.
    change (Z.to_nat 31) with 31%nat. now rewrite <- !lastn_map, H31. }
  split; [exact Hx|].
  assert (Hne : forall env k, py_round (scaled env s) = Ok k -> daily env <> []).
  { intros env k Hk Hd. rewrite (empty_history_raises env s Hd) in Hk. discriminate. }
  destruct (py_round (scaled env1 s)) as [k|e] eqn:Hk.
  - destruct (SetSignal_completes env1 s k Hs (Hne _ _ Hk) Hk)
      as (? & ? & ? & _ & _ & _ & ->).
    rewrite Hx in Hk.
    destruct (SetSignal_completes env2 s k Hs (Hne _ _ Hk) Hk)
      as (? & ? & ? & _ & _ & _ & ->).
    split; reflexivity.
  - rewrite (SetSignal_raise env1 s e Hk). rewrite Hx in Hk.
    rewrite (SetSignal_raise env2 s e Hk). split; reflexivity.
Qed.

Lemma adjustment_reads_31_closes_jump_day :
  numdays (final (SetSignal jump_day_recent Initialize)) = 33 /\
  high (final (SetSignal jump_day_recent Initialize))
  <> high (final (SetSignal jump_day Initialize)).
Proof.
  destruct (adjustment_reads_31_closes jump_day_recent jump_day Initialize)
    as (_ & _ & H).
  - split; reflexivity.
  - vm_compute. reflexivity.
  - split; [rewrite H; vm_compute; reflexivity|].
    vm_compute. discriminate.
Defined.

(** ** The levels in [self] *)

Lemma reachable_configured (s : Algo) : reachable s -> configured s.
Proof.
  induction 1; [split; reflexivity | now apply configured_final].
Qed.

(** X14. In every state the scheduled runs reach, the levels are all
    unset or all set together, and when set they are those of the window
    stored in [self.high] and [self.low]: [buypoint] is the maximum of
    [self.high], [sellpoint] the minimum of [self.low], the two lists have
    the same length, between 1 and [numdays].  An evaluation that raises
    does not break this. *)
Theorem levels_stay_consistent (s : Algo) :
  reachable s -> levels_consistent s.
Proof.
  induction 1 as [|env s Hr IH].
  - left. repeat split; reflexivity.
  - pose proof (reachable_configured s Hr) as Hs.
    destruct (SetSignal_cases env s)
      as [(e & _ & ->) | [(k & Hk & Hw & _) | (k & b1 & b2 & y & Hk & H1 & H2 & H3 & ->)]].
    + exact IH.
    + exfalso. refine (window_nonempty env s k Hs _ Hw).
      intros Hd. rewrite (empty_history_raises env s Hd) in Hk. discriminate.
    + right. cbn [final fst snd].
      exists b1, b2, (np_mean (map bar_close (History env (clamp s k)))), y.
      cbn [with_levels buypoint sellpoint longLiqPoint shortLiqPoint
           yesterdayclose high low numdays].
      do 7 (split; [first [reflexivity | assumption]|]).
      rewrite !length_map. split; [reflexivity|].
      pose proof (clamp_range s k Hs).
      unfold History. rewrite lastn_length. split; [|lia].
      destruct (daily env) as [|b w] eqn:Hd; [|cbn [length]; lia].
      rewrite (empty_history_raises env s Hd) in Hk. discriminate.
Qed.

Lemma levels_stay_consistent_after_two_days :
  levels_consistent (final (SetSignal flat_day (final (SetSignal jump_day Initialize)))).
Proof.
  apply levels_stay_consistent.
  apply reach_step, reach_step, reach_init.
Defined.
